(** * resolve_api.py: the DaVinci Resolve project-name probe

    A shallow embedding of
    [src/DaVinciTimeTracker.Core/Resolve/resolve_api.py] and the properties
    its specification states about it.

    The script is a straight line of calls into an external scripting
    library, wrapped in one [try]/[except Exception].  What it does depends
    on what each of these calls returns or raises and on what the standard
    output stream accepts, so the library is modelled as a record of answers
    ([surface]), the process around the script as a record ([environment]),
    and the interpreter as a small monad threading the text written to
    standard output, the log of calls made, and the pending exception or
    exit request.

    Conventions of the model:
    - every call into the library returns a value, raises an instance of
      [Exception], or raises a [BaseException] that is no [Exception]
      ([SystemExit], [KeyboardInterrupt]);
    - text is a [string]; a character with the high bit set stands for a
      character outside ASCII.  A write to [sys.stdout] appends the text, or
      raises when the stream cannot encode it and then appends nothing; text
      made of ASCII characters is always written;
    - [str(e)] of an exception is its text [exn_text]; [str(n)] of an
      integer raises when [n] has more digits than the interpreter's limit;
    - lines 12-21 of the script only build a path and append it to
      [sys.path]; their effect is on whether the import of line 23
      succeeds, which is an answer of the surface. *)

From Stdlib Require Import String Ascii List ZArith Bool Lia.
From Stdlib Require Import DecimalString DecimalPos DecimalZ.
Import ListNotations.
Local Open Scope string_scope.
Local Open Scope Z_scope.

(** ** Python values and exceptions *)

Definition handle := nat.

(** The values a lookup of the scripting library may hand back: [None], a
    boolean, an integer, a text, or any other object ([PyObj]): a host
    object, a module, but also a float or a container.  What such an object
    is worth in a truth test, its [str()] and its methods are answers of the
    surface. *)
Inductive pyval : Type :=
| PyNone
| PyBool (b : bool)
| PyInt (n : Z)
| PyStr (s : string)
| PyObj (h : handle).

(** An instance of [Exception]: its class name and [str(e)]. *)
Record pyexn : Type := mk_exn { exn_class : string; exn_text : string }.

(** A [BaseException] that is no [Exception]: [SystemExit] with an integer
    code, or another one ([KeyboardInterrupt], [GeneratorExit]) together
    with the exit status of a process it escapes from. *)
Inductive base_exception : Type :=
| ExitRequest (code : Z)
| OtherBase (b : pyexn) (escape_status : Z).

(** What a call answers: a value, an exception, or a base exception. *)
Inductive result (A : Type) : Type :=
| Ret (a : A)
| Raise (e : pyexn)
| RaiseBase (b : base_exception).
Arguments Ret {A} a.
Arguments Raise {A} e.
Arguments RaiseBase {A} b.

Definition LF : ascii := "010"%char.

Definition type_name (v : pyval) : string :=
  match v with
  | PyNone => "NoneType"
  | PyBool _ => "bool"
  | PyInt _ => "int"
  | PyStr _ => "str"
  | PyObj _ => "object"
  end.

(** The exception of a failed attribute lookup [v.attr]. *)
Definition AttributeError (v : pyval) (attr : string) : pyexn :=
  mk_exn "AttributeError"
         ("'" ++ type_name v ++ "' object has no attribute '" ++ attr ++ "'").

(** ** The integration surface *)

(** The chain of lookups, in the order of the script. *)
Inductive step : Type := Acquire | Application | Manager | Project | Name.

(** One answer per call the script can make.  [import_DaVinciResolveScript]
    is line 23; the next four fields are the methods of lines 25, 27, 29 and
    31, indexed by the object they are called on (an object without the
    method answers with an [AttributeError]).  [obj_bool] is [bool(obj)], the
    truth test of lines 26, 28 and 30 on an object ([__bool__], else
    [__len__], else true); [obj_str] is [str(obj)]. *)
Record surface : Type := mk_surface {
  import_DaVinciResolveScript : result handle;
  scriptapp : handle -> string -> result pyval;
  GetProjectManager : handle -> result pyval;
  GetCurrentProject : handle -> result pyval;
  GetName : handle -> result pyval;
  obj_bool : handle -> result bool;
  obj_str : handle -> result string
}.

(** [bool(v)], the test of an [if v:]. *)
Definition truthy (sf : surface) (v : pyval) : result bool :=
  match v with
  | PyNone => Ret false
  | PyBool b => Ret b
  | PyInt n => Ret (negb (n =? 0))
  | PyStr s => Ret (match s with EmptyString => false | String _ _ => true end)
  | PyObj h => obj_bool sf h
  end.

(** [recv.attr(...)]: the method answers when the receiver is an object; on
    [None], a boolean, an integer or a text the attribute lookup itself
    raises. *)
Definition getattr_call (attr : string) (f : handle -> result pyval)
           (recv : pyval) : result pyval :=
  match recv with
  | PyObj h => f h
  | _ => Raise (AttributeError recv attr)
  end.

(** ** The process environment *)

(** What the script finds around it: [sys.platform]; what the re-wrapping
    of the two streams (lines 6-8) does when it is run: [None] when it
    completes, [Some e] when it raises (in a process started without
    standard streams [sys.stdout] is [None] and [sys.stdout.buffer] raises an
    [AttributeError]); what a write of a text with characters outside ASCII
    to [sys.stdout] raises, for the stream in place when the guarded region
    runs (on win32 the utf-8 wrapper of line 7, elsewhere the stream the
    process inherited): [None] when the stream encodes the text, [Some e]
    for the [UnicodeEncodeError] [e]; and the interpreter's limit on the
    number of digits of an integer converted to text
    ([sys.get_int_max_str_digits()]; 0 when there is no limit). *)
Record environment : Type := mk_env {
  platform : string;
  rewrap : option pyexn;
  encode_error : string -> option pyexn;
  int_max_str_digits : nat
}.

Definition ascii_char (c : ascii) : bool :=
  match c with Ascii _ _ _ _ _ _ _ high => negb high end.

Fixpoint ascii_only (s : string) : bool :=
  match s with
  | EmptyString => true
  | String c s' => ascii_char c && ascii_only s'
  end.

(** What [sys.stdout.write(text)] raises, if anything. *)
Definition write_error (env : environment) (text : string) : option pyexn :=
  if ascii_only text then None else encode_error env text.

(** The [ValueError] of [str(n)] for an integer with too many digits. *)
Definition digits_limit_error (limit : nat) : pyexn :=
  mk_exn "ValueError"
         ("Exceeds the limit (" ++ NilZero.string_of_uint (Nat.to_uint limit)
          ++ " digits) for integer string conversion; "
          ++ "use sys.set_int_max_str_digits() to increase the limit").

(** [str(v)], as [print] applies it. *)
Definition py_str (env : environment) (sf : surface) (v : pyval) : result string :=
  match v with
  | PyNone => Ret "None"
  | PyBool true => Ret "True"
  | PyBool false => Ret "False"
  | PyInt n =>
      let limit := int_max_str_digits env in
      if ((0 <? limit) && (limit <? Decimal.nb_digits (Decimal.abs (Z.to_int n))))%nat
      then Raise (digits_limit_error limit)
      else Ret (NilZero.string_of_int (Z.to_int n))
  | PyStr s => Ret s
  | PyObj h => obj_str sf h
  end.

(** ** The interpreter monad *)

(** What unwinds the stack: an [Exception]; the [SystemExit] of [sys.exit]
    or of a call, which is a [BaseException] but not an [Exception]; or
    another base exception. *)
Inductive signal : Type :=
| Exc (e : pyexn)
| SystemExit (code : Z)
| Escaping (b : pyexn) (escape_status : Z).

Inductive completion (A : Type) : Type :=
| Normal (a : A)
| Abrupt (s : signal).
Arguments Normal {A} a.
Arguments Abrupt {A} s.

Definition event : Type := step * result pyval.

(** The state a run threads: the text written to standard output so far and
    the lookups attempted so far, oldest first. *)
Record world : Type := mk_world { stdout : string; trace : list event }.

Definition M (A : Type) : Type := world -> completion A * world.

Definition ret {A} (a : A) : M A := fun w => (Normal a, w).

Definition bind {A B} (m : M A) (k : A -> M B) : M B :=
  fun w =>
    match m w with
    | (Normal a, w') => k a w'
    | (Abrupt s, w') => (Abrupt s, w')
    end.

Definition raise {A} (s : signal) : M A := fun w => (Abrupt s, w).

Declare Scope py_scope.
Delimit Scope py_scope with py.
Notation "x <- m ;; k" := (bind m (fun x => k))
  (at level 100, m at next level, right associativity) : py_scope.
Notation "m ;; k" := (bind m (fun _ => k))
  (at level 100, right associativity) : py_scope.
Local Open Scope py_scope.

(** [try: body except Exception as e: handler e].  A [SystemExit] or another
    base exception raised in the body is not an [Exception] and passes
    through. *)
Definition try_except_Exception {A} (body : M A) (handler : pyexn -> M A) : M A :=
  fun w =>
    match body w with
    | (Normal a, w') => (Normal a, w')
    | (Abrupt (Exc e), w') => handler e w'
    | (Abrupt (SystemExit c), w') => (Abrupt (SystemExit c), w')
    | (Abrupt (Escaping b st), w') => (Abrupt (Escaping b st), w')
    end.

(** The answer of a call, as the interpreter takes it: a value to go on
    with, or something raised. *)
Definition answer {A} (r : result A) : M A :=
  fun w =>
    match r with
    | Ret a => (Normal a, w)
    | Raise e => (Abrupt (Exc e), w)
    | RaiseBase (ExitRequest code) => (Abrupt (SystemExit code), w)
    | RaiseBase (OtherBase b st) => (Abrupt (Escaping b st), w)
    end.

(** [sys.stdout.write(text)]. *)
Definition write (env : environment) (text : string) : M unit :=
  fun w =>
    match write_error env text with
    | None => (Normal tt, mk_world (stdout w ++ text) (trace w))
    | Some e => (Abrupt (Exc e), w)
    end.

(** [print(v)]: [str(v)], then the text, then a line feed go to standard
    output. *)
Definition print (env : environment) (sf : surface) (v : pyval) : M unit :=
  text <- answer (py_str env sf v) ;;
  write env text ;;
  write env (String LF EmptyString).

(** [sys.exit(code)]. *)
Definition sys_exit {A} (code : Z) : M A := raise (SystemExit code).

(** A call into the surface: it is logged, then returns or raises. *)
Definition lookup (s : step) (r : result pyval) : M pyval :=
  fun w => answer r (mk_world (stdout w) (trace w ++ [(s, r)])).

(** ** The script *)

(** Lines 5-8. *)
Definition startup (env : environment) : M unit :=
  if (platform env =? "win32")%string then
    match rewrap env with
    | None => ret tt
    | Some e => raise (Exc e)
    end
  else ret tt.

(** [import DaVinciResolveScript as dvr_script], line 23. *)
Definition import_module (sf : surface) : result pyval :=
  match import_DaVinciResolveScript sf with
  | Ret m => Ret (PyObj m)
  | Raise e => Raise e
  | RaiseBase b => RaiseBase b
  end.

(** Lines 11-36, the body of the [try]. *)
Definition try_body (env : environment) (sf : surface) : M unit :=
  dvr_script <- lookup Acquire (import_module sf) ;;
  resolve <- lookup Application
    (getattr_call "scriptapp" (fun m => scriptapp sf m "Resolve") dvr_script) ;;
  resolve_true <- answer (truthy sf resolve) ;;
  (if resolve_true then
     pm <- lookup Manager
       (getattr_call "GetProjectManager" (GetProjectManager sf) resolve) ;;
     pm_true <- answer (truthy sf pm) ;;
     if pm_true then
       project <- lookup Project
         (getattr_call "GetCurrentProject" (GetCurrentProject sf) pm) ;;
       project_true <- answer (truthy sf project) ;;
       if project_true then
         project_name <- lookup Name
           (getattr_call "GetName" (GetName sf) project) ;;
         print env sf project_name ;;
         sys_exit 0
       else ret tt
     else ret tt
   else ret tt) ;;
  print env sf (PyStr "NO_PROJECT") ;;
  sys_exit 1.

(** Lines 37-39, the handler. *)
Definition handler (env : environment) (sf : surface) (e : pyexn) : M unit :=
  print env sf (PyStr ("ERROR:" ++ exn_text e)) ;;
  sys_exit 2.

(** Lines 10-39. *)
Definition guarded (env : environment) (sf : surface) : M unit :=
  try_except_Exception (try_body env sf) (handler env sf).

(** The whole module. *)
Definition script (env : environment) (sf : surface) : M unit :=
  startup env ;; guarded env sf.

(** ** The process *)

(** How the interpreter ends: by an exit request; by an exception nobody
    caught (traceback on standard error, exit status 1); or by another base
    exception escaping, with its status. *)
Inductive termination : Type :=
| Exited (code : Z)
| Uncaught (e : pyexn)
| Escaped (b : pyexn) (escape_status : Z).

Record process : Type := mk_process {
  out : string;
  status : termination;
  calls : list event
}.

Definition initial : world := mk_world EmptyString [].

Definition terminate (c : completion unit) : termination :=
  match c with
  | Normal _ => Exited 0
  | Abrupt (SystemExit code) => Exited code
  | Abrupt (Exc e) => Uncaught e
  | Abrupt (Escaping b st) => Escaped b st
  end.

Definition finish (r : completion unit * world) : process :=
  mk_process (stdout (snd r)) (terminate (fst r)) (trace (snd r)).

(** One invocation: the module is executed in a fresh process. *)
Definition run (env : environment) (sf : surface) : process :=
  finish (script env sf initial).

Definition exit_code (p : process) : Z :=
  match status p with
  | Exited code => code
  | Uncaught _ => 1
  | Escaped _ st => st
  end.

(** ** The vocabulary of the specification *)

(** The three outcomes and the process contract: the text printed and the
    exit code of each. *)
Inductive Outcome : Type :=
| Found (name : string)
| NotFound
| Error (message : string).

Definition stdout_text (o : Outcome) : string :=
  match o with
  | Found name => name
  | NotFound => "NO_PROJECT"
  | Error message => "ERROR:" ++ message
  end.

Definition exit_of (o : Outcome) : Z :=
  match o with
  | Found _ => 0
  | NotFound => 1
  | Error _ => 2
  end.

(** What one [print] of [text] leaves on standard output. *)
Definition line (text : string) : string := text ++ String LF EmptyString.

(** The process reports [o]: standard output holds the one print of its
    text and the process exited with its code. *)
Definition reports (p : process) (o : Outcome) : Prop :=
  out p = line (stdout_text o) /\ status p = Exited (exit_of o).

(** The number of line feeds of a text; for what a stream received, the
    number of lines written to it. *)
Fixpoint line_feeds (s : string) : nat :=
  match s with
  | EmptyString => 0%nat
  | String c s' => ((if Ascii.eqb c LF then 1 else 0) + line_feeds s')%nat
  end.

Definition lines_written (s : string) : nat := line_feeds s.

(** The startup of lines 5-8 completes: the platform is not win32, or the
    re-wrapping of the streams does not raise. *)
Definition starts (env : environment) : Prop :=
  platform env <> "win32" \/ rewrap env = None.


(** The stream encodes [text]. *)
Definition writable (env : environment) (text : string) : Prop :=
  write_error env text = None.

(** [print(v)] goes through and writes [text]: [str(v)] returns [text] and
    the stream encodes it. *)
Definition printable (env : environment) (sf : surface) (v : pyval)
           (text : string) : Prop :=
  py_str env sf v = Ret text /\ writable env text.

(** A call that returns or raises an instance of [Exception]. *)
Definition no_base {A} (r : result A) : Prop := forall b, r <> RaiseBase b.

(** A surface none of whose calls raises a base exception: each returns a
    value or raises an instance of [Exception]. *)
Definition ordinary (sf : surface) : Prop :=
  no_base (import_DaVinciResolveScript sf) /\
  (forall h a, no_base (scriptapp sf h a)) /\
  (forall h, no_base (GetProjectManager sf h)) /\
  (forall h, no_base (GetCurrentProject sf h)) /\
  (forall h, no_base (GetName sf h)) /\
  (forall h, no_base (obj_bool sf h)) /\
  (forall h, no_base (obj_str sf h)).

(** Whenever the body of the [try] raises an exception, the stream encodes
    the line the handler prints for it. *)
Definition error_line_writable (env : environment) (sf : surface) : Prop :=
  forall e w, try_body env sf initial = (Abrupt (Exc e), w) ->
              writable env ("ERROR:" ++ exn_text e).

(** The values Python's truth test rejects: [None], [False], zero, the empty
    text, and an object whose [__bool__] answers [False] or whose [__len__]
    answers 0 (a zero float, an empty container, a host object that says
    so). *)
Inductive falsy (sf : surface) : pyval -> Prop :=
| falsy_None : falsy sf PyNone
| falsy_False : falsy sf (PyBool false)
| falsy_zero : falsy sf (PyInt 0)
| falsy_empty_text : falsy sf (PyStr EmptyString)
| falsy_object h : obj_bool sf h = Ret false -> falsy sf (PyObj h).

(** An answer after which the script asks nothing more of the chain: an
    exception, or, at a step whose answer the script tests, a value that
    does not pass the truth test. *)
Definition halts (sf : surface) (ev : event) : bool :=
  match snd ev with
  | Ret v =>
      match fst ev with
      | Acquire => false
      | _ => match truthy sf v with Ret true => false | _ => true end
      end
  | _ => true
  end.

Definition chain_order : list step := [Acquire; Application; Manager; Project; Name].

(** [l] is an initial segment of [l']. *)
Definition prefix {A} (l l' : list A) : Prop := exists rest, l' = (l ++ rest)%list.

(** The full chain resolves to [v]: the import and the three handle lookups
    each hand back an object that passes the truth test, and the name lookup
    returns [v]. *)
Definition resolves_to (sf : surface) (v : pyval) : Prop :=
  exists m h1 h2 h3,
    import_DaVinciResolveScript sf = Ret m /\
    scriptapp sf m "Resolve" = Ret (PyObj h1) /\
    obj_bool sf h1 = Ret true /\
    GetProjectManager sf h1 = Ret (PyObj h2) /\
    obj_bool sf h2 = Ret true /\
    GetCurrentProject sf h2 = Ret (PyObj h3) /\
    obj_bool sf h3 = Ret true /\
    GetName sf h3 = Ret v.

(** The step the script goes on to after a true answer at [s]. *)
Definition next_step (s : step) : option step :=
  match s with
  | Acquire => Some Application
  | Application => Some Manager
  | Manager => Some Project
  | Project => Some Name
  | Name => None
  end.

(** The attribute the script looks up on the answer of the step before [s]. *)
Definition attribute_of (s : step) : string :=
  match s with
  | Acquire => "DaVinciResolveScript"
  | Application => "scriptapp"
  | Manager => "GetProjectManager"
  | Project => "GetCurrentProject"
  | Name => "GetName"
  end.

(** The steps whose answer the script tests with [if]. *)
Definition handle_step (s : step) : Prop :=
  s = Application \/ s = Manager \/ s = Project.

(** ** Sample environments and surfaces *)

(** A stream that encodes every text (utf-8). *)
Definition encodes_all : string -> option pyexn := fun _ => None.

Definition hex_digit (n : nat) : string :=
  match get n "0123456789abcdef" with
  | Some c => String c EmptyString
  | None => "?"
  end.

(** The first character outside ASCII of a text, and its position. *)
Fixpoint first_non_ascii (s : string) (pos : nat) : option (ascii * nat) :=
  match s with
  | EmptyString => None
  | String c s' =>
      if ascii_char c then first_non_ascii s' (S pos) else Some (c, pos)
  end.

(** The ascii codec: it raises on the first character outside ASCII. *)
Definition ascii_codec (text : string) : option pyexn :=
  match first_non_ascii text 0 with
  | None => None
  | Some (c, pos) =>
      Some (mk_exn "UnicodeEncodeError"
              ("'ascii' codec can't encode character '\x"
               ++ hex_digit (nat_of_ascii c / 16) ++ hex_digit (nat_of_ascii c mod 16)
               ++ "' in position " ++ NilZero.string_of_uint (Nat.to_uint pos)
               ++ ": ordinal not in range(128)"))
  end.

Definition windows : environment := mk_env "win32" None encodes_all 4300.
Definition posix : environment := mk_env "linux" None encodes_all 4300.

(** A posix process whose standard output has the ascii encoding. *)
Definition posix_ascii : environment := mk_env "linux" None ascii_codec 4300.

(** A win32 process started without standard streams. *)
Definition headless : environment :=
  mk_env "win32"
         (Some (mk_exn "AttributeError" "'NoneType' object has no attribute 'buffer'"))
         encodes_all 4300.

Definition no_answer : handle -> result pyval :=
  fun _ => Raise (mk_exn "RuntimeError" "not reached").

Definition always_true : handle -> result bool := fun _ => Ret true.

Definition remote_object : handle -> result string :=
  fun _ => Ret "<PyRemoteObject>".

(** A host with the project [name] open: module 0, application 1,
    manager 2, project 3. *)
Definition host_with (name : result pyval) : surface :=
  mk_surface (Ret 0%nat)
             (fun _ _ => Ret (PyObj 1%nat))
             (fun _ => Ret (PyObj 2%nat))
             (fun _ => Ret (PyObj 3%nat))
             (fun _ => name)
             always_true remote_object.

(** The scripting module cannot be imported. *)
Definition not_installed (e : pyexn) : surface :=
  mk_surface (Raise e) (fun _ _ => Ret (PyObj 1%nat)) no_answer no_answer no_answer
             always_true remote_object.

(** The module is there; the application lookup answers [r]. *)
Definition application_answers (r : result pyval) : surface :=
  mk_surface (Ret 0%nat) (fun _ _ => r)
             (fun _ => Ret (PyObj 2%nat))
             (fun _ => Ret (PyObj 3%nat))
             (fun _ => Ret (PyStr "MyProject"))
             always_true remote_object.

(** The application is there; the manager lookup answers [r]. *)
Definition manager_answers (r : result pyval) : surface :=
  mk_surface (Ret 0%nat) (fun _ _ => Ret (PyObj 1%nat))
             (fun _ => r)
             (fun _ => Ret (PyObj 3%nat))
             (fun _ => Ret (PyStr "MyProject"))
             always_true remote_object.

(** Application and manager are there; the project lookup answers [r]. *)
Definition project_answers (r : result pyval) : surface :=
  mk_surface (Ret 0%nat) (fun _ _ => Ret (PyObj 1%nat))
             (fun _ => Ret (PyObj 2%nat))
             (fun _ => r)
             (fun _ => Ret (PyStr "MyProject"))
             always_true remote_object.

(** A host with the project MyProject open whose application object
    answers [False] to the truth test. *)
Definition host_with_falsy_application : surface :=
  mk_surface (Ret 0%nat)
             (fun _ _ => Ret (PyObj 1%nat))
             (fun _ => Ret (PyObj 2%nat))
             (fun _ => Ret (PyObj 3%nat))
             (fun _ => Ret (PyStr "MyProject"))
             (fun h => Ret (negb (h =? 1)%nat)) remote_object.

(** An import error whose message runs over two lines. *)
Definition two_line_error : pyexn :=
  mk_exn "ImportError"
         ("Could not locate module dependencies" ++ String LF "fusionscript not found").

Definition timed_out : pyexn := mk_exn "TimeoutError" "timeout".

(** The text café; its last character is outside ASCII. *)
Definition cafe : string := "caf" ++ String "233"%char EmptyString.

Definition cafe_error : pyexn := mk_exn "RuntimeError" cafe.

(** What the ascii codec raises on the text café. *)
Definition cafe_encode_error : pyexn :=
  mk_exn "UnicodeEncodeError"
         "'ascii' codec can't encode character '\xe9' in position 3: ordinal not in range(128)".

(** What the ascii codec raises on the line ERROR:café. *)
Definition cafe_line_encode_error : pyexn :=
  mk_exn "UnicodeEncodeError"
         "'ascii' codec can't encode character '\xe9' in position 9: ordinal not in range(128)".


(** ** Symbolic execution of the script *)

#[local] Arguments getattr_call attr f !recv : simpl nomatch.
#[local] Arguments truthy sf !v : simpl nomatch.
#[local] Arguments py_str env sf !v : simpl nomatch.
#[local] Arguments write_error : simpl never.

Lemma write_error_ascii env text : ascii_only text = true -> write_error env text = None.
Proof. intros H. unfold write_error. rewrite H. reflexivity. Qed.

Lemma write_error_LF env : write_error env (String LF EmptyString) = None.
Proof. reflexivity. Qed.

Lemma write_error_NO_PROJECT env : write_error env "NO_PROJECT" = None.
Proof. reflexivity. Qed.

(** The answer of a call: a value, an exception for the handler, or a base
    exception that passes the handler. *)
Ltac answers r v e :=
  let code := fresh "code" in
  let b := fresh "b" in
  let st := fresh "st" in
  destruct r as [v | e | [code | b st]] eqn:?; cbn.

Ltac truth_test r e :=
  let code := fresh "code" in
  let b := fresh "b" in
  let st := fresh "st" in
  destruct r as [[|] | e | [code | b st]] eqn:?; cbn.

(** Case analysis along the script for the surface [sf] in the environment
    [env]: one goal per way the calls, the truth tests and the stream can
    answer, each with the process the guarded region ends in. *)
Ltac walk env sf :=
  unfold finish, guarded, try_except_Exception, try_body, handler, print, write,
    bind, lookup, answer, sys_exit, raise, ret, import_module, initial;
  cbn;
  rewrite ?(write_error_LF env), ?(write_error_NO_PROJECT env);
  cbn;
  let m := fresh "m" in
  let e := fresh "e" in
  let resolve := fresh "resolve" in
  let pm := fresh "pm" in
  let project := fresh "project" in
  let project_name := fresh "project_name" in
  let text := fresh "text" in
  answers (import_DaVinciResolveScript sf) m e;
  [ answers (scriptapp sf m "Resolve") resolve e;
    [ truth_test (truthy sf resolve) e;
      [ answers (getattr_call "GetProjectManager" (GetProjectManager sf) resolve) pm e;
        [ truth_test (truthy sf pm) e;
          [ answers (getattr_call "GetCurrentProject" (GetCurrentProject sf) pm)
                    project e;
            [ truth_test (truthy sf project) e;
              [ answers (getattr_call "GetName" (GetName sf) project)
                        project_name e;
                [ answers (py_str env sf project_name) text e;
                  [ destruct (write_error env text) as [e |] eqn:?; cbn | .. ]
                | .. ]
              | .. ]
            | .. ]
          | .. ]
        | .. ]
      | .. ]
    | .. ]
  | .. ];
  repeat match goal with
         | |- context [write_error env ?t] =>
             let e' := fresh "e'" in
             destruct (write_error env t) as [e' |] eqn:?; cbn
         end.

(** Which event of a concrete log a membership hypothesis speaks of. *)
Ltac pick H :=
  cbn in H;
  repeat (destruct H as [H | H]);
  try contradiction;
  try (inversion H; subst; clear H).

(** After [pick]: the answers fixed by the hypothesis are computed, and a
    write the stream cannot refuse is not refused. *)
Ltac tidy :=
  cbn in *;
  repeat match goal with
    | H : Ret _ = Ret _ |- _ => injection H as H; try subst
    | H : Raise _ = Raise _ |- _ => injection H as H; try subst
    | H : Ret _ = Raise _ |- _ => discriminate H
    | H : Ret _ = RaiseBase _ |- _ => discriminate H
    | H : Raise _ = Ret _ |- _ => discriminate H
    | H : Raise _ = RaiseBase _ |- _ => discriminate H
    | H : write_error ?env ?t = Some _ |- _ =>
        rewrite (write_error_ascii env t eq_refl) in H; discriminate H
    end.

Lemma startup_starts env w : starts env -> startup env w = (Normal tt, w).
Proof.
  unfold starts, startup. intros [H | H].
  - apply String.eqb_neq in H. rewrite H. reflexivity.
  - rewrite H. destruct (platform env =? "win32")%string; reflexivity.
Qed.

(** A run either gets past the startup and is the run of the guarded region,
    or the re-wrapping raised and nothing else happened. *)
Lemma run_cases env sf :
  (starts env /\ run env sf = finish (guarded env sf initial)) \/
  (exists e, platform env = "win32" /\ rewrap env = Some e /\
             run env sf = mk_process EmptyString (Uncaught e) []).
Proof.
  unfold run, script, bind, startup, starts.
  destruct (platform env =? "win32")%string eqn:P.
  - apply String.eqb_eq in P. destruct (rewrap env) as [e|] eqn:R.
    + right. exists e. auto.
    + left. split; [now right | reflexivity].
  - apply String.eqb_neq in P. left. split; [now left | reflexivity].
Qed.

Lemma run_starts env sf :
  starts env -> run env sf = finish (guarded env sf initial).
Proof.
  intros H. unfold run, script, bind. rewrite (startup_starts env initial H).
  reflexivity.
Qed.

(** A run that made a lookup got past the startup. *)
Lemma run_of_call env sf ev :
  In ev (calls (run env sf)) -> run env sf = finish (guarded env sf initial).
Proof.
  destruct (run_cases env sf) as [[_ E] | (e & _ & _ & E)]; rewrite E.
  - reflexivity.
  - intros [].
Qed.


(** ** Lines *)

Lemma line_inj a b : line a = line b -> a = b.
Proof.
  unfold line. revert b.
  induction a as [|c a IH]; intros [|d b] H; cbn in H.
  - reflexivity.
  - injection H as _ H. destruct b; discriminate.
  - injection H as _ H. destruct a; discriminate.
  - injection H as -> H. f_equal. now apply IH.
Qed.

Lemma line_not_empty text : line text <> EmptyString.
Proof. unfold line. destruct text; discriminate. Qed.

Lemma line_feeds_app a b : line_feeds (a ++ b) = (line_feeds a + line_feeds b)%nat.
Proof.
  induction a as [|c a IH]; cbn; [reflexivity|]. rewrite IH. lia.
Qed.

Lemma line_feeds_line text : line_feeds (line text) = S (line_feeds text).
Proof. unfold line. rewrite line_feeds_app. cbn. lia. Qed.

Lemma reports_unique p o o' : reports p o -> reports p o' -> o = o'.
Proof.
  intros [Ho Hs] [Ho' Hs']. rewrite Ho in Ho'. rewrite Hs in Hs'.
  apply line_inj in Ho'. injection Hs' as Hc.
  destruct o, o'; cbn in *; try discriminate; try reflexivity.
  - now subst.
  - injection Ho' as ->. reflexivity.
Qed.

Lemma reports_exit_code p o : reports p o -> exit_code p = exit_of o.
Proof. intros [_ H]. unfold exit_code. rewrite H. reflexivity. Qed.

(** ** Calls that raise no base exception *)

Lemma getattr_call_no_base attr f v :
  (forall h, no_base (f h)) -> no_base (getattr_call attr f v).
Proof.
  intros H. destruct v; cbn; try (intros ? E; discriminate E). apply H.
Qed.

Lemma truthy_no_base sf v : ordinary sf -> no_base (truthy sf v).
Proof.
  intros (_ & _ & _ & _ & _ & H & _).
  destruct v; cbn; try (intros ? E; discriminate E). apply H.
Qed.

Lemma py_str_no_base env sf v : ordinary sf -> no_base (py_str env sf v).
Proof.
  intros (_ & _ & _ & _ & _ & _ & H).
  destruct v as [| [|] | n | s | h]; cbn; try (intros ? E; discriminate E).
  - unfold py_str.
    destruct ((0 <? int_max_str_digits env)%nat &&
              (int_max_str_digits env <? Decimal.nb_digits (Decimal.abs (Z.to_int n)))%nat);
      intros ? E; discriminate E.
  - apply H.
Qed.

(** In a goal reached by [walk], a base exception contradicts [ordinary]. *)
Ltac no_base_here O :=
  exfalso;
  match goal with
  | H : import_DaVinciResolveScript _ = RaiseBase ?b |- _ =>
      exact (proj1 O b H)
  | H : scriptapp _ ?h ?a = RaiseBase ?b |- _ =>
      exact (proj1 (proj2 O) h a b H)
  | H : getattr_call ?a (GetProjectManager _) ?v = RaiseBase ?b |- _ =>
      exact (getattr_call_no_base a _ v (proj1 (proj2 (proj2 O))) b H)
  | H : getattr_call ?a (GetCurrentProject _) ?v = RaiseBase ?b |- _ =>
      exact (getattr_call_no_base a _ v (proj1 (proj2 (proj2 (proj2 O)))) b H)
  | H : getattr_call ?a (GetName _) ?v = RaiseBase ?b |- _ =>
      exact (getattr_call_no_base a _ v
               (proj1 (proj2 (proj2 (proj2 (proj2 O))))) b H)
  | H : truthy _ ?v = RaiseBase ?b |- _ =>
      exact (truthy_no_base _ v O b H)
  | H : py_str _ _ ?v = RaiseBase ?b |- _ =>
      exact (py_str_no_base _ _ v O b H)
  end.

(** The guarded region of an ordinary surface ends by reporting an outcome
    when the stream encodes the line of the handler. *)
Lemma guarded_reports env sf :
  ordinary sf -> error_line_writable env sf ->
  exists o, reports (finish (guarded env sf initial)) o.
Proof.
  intros O. unfold error_line_writable, writable, reports.
  walk env sf; intros W.
  all: try solve [no_base_here O].
  all: try (specialize (W _ _ eq_refl); cbn in W; congruence).
  all: try (eexists (Error _); split; reflexivity).
  all: try (exists NotFound; split; reflexivity).
  exists (Found text). split; reflexivity.
Qed.

(** ** Samples *)

(** The sample hosts raise no base exception. *)
Ltac ordinary_sample :=
  unfold ordinary, no_base; cbn; repeat split; intros;
  match goal with |- _ <> _ => let E := fresh in intros E; discriminate E end.

(** A stream that encodes every text writes every text. *)
Lemma encodes_all_writable env text :
  encode_error env = encodes_all -> writable env text.
Proof.
  intros H. unfold writable, write_error. rewrite H.
  destruct (ascii_only text); reflexivity.
Qed.

(** ** The shape of the log *)

(** When no event but the last one halts, an event that halts is the last. *)
Lemma halting_event_last sf (l : list event) :
  Forall (fun ev => halts sf ev = false) (removelast l) ->
  forall before ev after,
    l = (before ++ ev :: after)%list -> halts sf ev = true -> after = [].
Proof.
  intros F before ev after -> Hh.
  destruct after as [|ev' after]; [reflexivity | exfalso].
  rewrite removelast_app in F by discriminate.
  apply Forall_app in F as [_ F].
  cbn [removelast] in F. inversion F as [|x xs Hx _]; subst.
  congruence.
Qed.

(** ** C1 *)

(** C1, at explicit inputs.  The program does not always write one line and
    exit with 0, 1 or 2: on win32 without standard streams the startup
    raises and nothing is written; a lookup that raises [SystemExit(5)]
    ends the process with code 5 and nothing written; on a stream with the
    ascii encoding, when a lookup raises an exception with the message
    café, the print of the handler raises, nothing is written and no
    outcome is reported; and an import error whose message runs over two
    lines puts two lines on standard output. *)
Lemma one_line_one_outcome_refuted :
  (out (run headless (host_with (Ret (PyStr "MyProject")))) = EmptyString /\
   forall o, ~ reports (run headless (host_with (Ret (PyStr "MyProject")))) o) /\
  (out (run windows (application_answers (RaiseBase (ExitRequest 5)))) = EmptyString /\
   exit_code (run windows (application_answers (RaiseBase (ExitRequest 5)))) = 5) /\
  (out (run posix_ascii (application_answers (Raise cafe_error))) = EmptyString /\
   (exists e, status (run posix_ascii (application_answers (Raise cafe_error)))
              = Uncaught e) /\
   forall o, ~ reports (run posix_ascii (application_answers (Raise cafe_error))) o) /\
  (reports (run posix (not_installed two_line_error))
           (Error (exn_text two_line_error)) /\
   lines_written (out (run posix (not_installed two_line_error))) = 2%nat /\
   lines_written (out (run posix (not_installed two_line_error))) <> 1%nat).
Proof.
  repeat apply conj.
  - reflexivity.
  - intros o [_ H]. discriminate H.
  - reflexivity.
  - reflexivity.
  - reflexivity.
  - eexists. reflexivity.
  - intros o [_ H]. discriminate H.
  - reflexivity.
  - reflexivity.
  - reflexivity.
  - discriminate.
Qed.

(** C1, amended: in every run in which the startup completes, every call
    into the surface returns or raises an instance of [Exception], and the
    stream encodes the line the handler prints for the exception the body
    of the [try] raises (if it raises one), the process reports exactly one
    of the outcomes Found, NotFound and Error: standard output holds the
    single print of that outcome's text, the exit code is 0, 1 or 2, and the
    number of lines written is one more than the number of line feeds in
    the printed text, so exactly one line when the name or message has no
    line break. *)
Theorem run_one_outcome env sf :
  starts env ->
  ordinary sf ->
  error_line_writable env sf ->
  exists o,
    reports (run env sf) o /\
    (forall o', reports (run env sf) o' -> o' = o) /\
    (exit_code (run env sf) = 0 \/ exit_code (run env sf) = 1 \/
     exit_code (run env sf) = 2) /\
    lines_written (out (run env sf)) = S (line_feeds (stdout_text o)).
Proof.
  intros Hs O W. rewrite (run_starts env sf Hs).
  destruct (guarded_reports env sf O W) as [o Ho]. exists o.
  split; [exact Ho | split; [| split]].
  - intros o' Ho'. exact (reports_unique _ _ _ Ho' Ho).
  - rewrite (reports_exit_code _ _ Ho). destruct o; cbn; auto.
  - destruct Ho as [Ho _]. rewrite Ho. apply line_feeds_line.
Qed.

Lemma run_one_outcome_witness :
  exists o,
    reports (run windows (host_with (Ret (PyStr "MyProject")))) o /\
    (forall o', reports (run windows (host_with (Ret (PyStr "MyProject")))) o' -> o' = o) /\
    (exit_code (run windows (host_with (Ret (PyStr "MyProject")))) = 0 \/
     exit_code (run windows (host_with (Ret (PyStr "MyProject")))) = 1 \/
     exit_code (run windows (host_with (Ret (PyStr "MyProject")))) = 2) /\
    lines_written (out (run windows (host_with (Ret (PyStr "MyProject"))))) =
      S (line_feeds (stdout_text o)).
Proof.
  apply (run_one_outcome windows (host_with (Ret (PyStr "MyProject")))).
  - right. reflexivity.
  - ordinary_sample.
  - intros e w _. apply encodes_all_writable. reflexivity.
Defined.

(** ** C2 *)

(** C2, at an explicit input: when the name lookup returns [None], the
    script prints the text None and exits with code 0: the outcome is Found,
    not NotFound. *)
Lemma null_name_is_found :
  reports (run windows (host_with (Ret PyNone))) (Found "None") /\
  ~ reports (run windows (host_with (Ret PyNone))) NotFound.
Proof.
  split; [split; reflexivity |]. intros [_ H]. discriminate H.
Qed.

(** C2, amended: at the manager and project steps a [None] answer
    short-circuits to NotFound (standard output NO_PROJECT, exit code 1);
    the answer of the name lookup is not tested: a [None] name is printed as
    the text None and the exit code is 0. *)
Theorem null_short_circuits env sf :
  (In (Manager, Ret PyNone) (calls (run env sf)) \/
   In (Project, Ret PyNone) (calls (run env sf)) ->
   reports (run env sf) NotFound) /\
  (In (Name, Ret PyNone) (calls (run env sf)) ->
   reports (run env sf) (Found "None")).
Proof.
  split.
  - intros H.
    assert (E : run env sf = finish (guarded env sf initial))
      by (destruct H as [H | H]; exact (run_of_call _ _ _ H)).
    rewrite E in *. revert H. unfold reports.
    walk env sf; intros [H | H]; pick H; try discriminate; split; reflexivity.
  - intros H. pose proof (run_of_call _ _ _ H) as E.
    rewrite E in *. revert H. unfold reports.
    walk env sf; intros H; pick H; tidy; split; reflexivity.
Qed.

Lemma null_short_circuits_witness :
  reports (run windows (project_answers (Ret PyNone))) NotFound /\
  reports (run windows (host_with (Ret PyNone))) (Found "None").
Proof.
  split.
  - apply (null_short_circuits windows (project_answers (Ret PyNone))).
    right. simpl. auto 8.
  - apply (null_short_circuits windows (host_with (Ret PyNone))).
    simpl. auto 8.
Defined.

(** ** C3 *)

(** What the guarded region does when the chain resolves to [v]. *)
Lemma guarded_resolves env sf v :
  resolves_to sf v ->
  exists m h1 h2 h3,
    finish (guarded env sf initial) =
    finish (try_except_Exception
              (print env sf v ;; sys_exit 0) (handler env sf)
              (mk_world EmptyString
                 [(Acquire, Ret (PyObj m)); (Application, Ret (PyObj h1));
                  (Manager, Ret (PyObj h2)); (Project, Ret (PyObj h3));
                  (Name, Ret v)])).
Proof.
  intros (m & h1 & h2 & h3 & Hm & H1 & T1 & H2 & T2 & H3 & T3 & H4).
  exists m, h1, h2, h3.
  unfold guarded, try_except_Exception, try_body, bind, lookup, answer,
    import_module, initial.
  rewrite Hm. cbn. rewrite H1. cbn. rewrite T1. cbn. rewrite H2. cbn.
  rewrite T2. cbn. rewrite H3. cbn. rewrite T3. cbn. rewrite H4. cbn.
  unfold sys_exit, raise.
  destruct (print env sf v _) as [[[] | s] w']; reflexivity.
Qed.

(** C3, at explicit inputs.  A resolved chain does not always end in Found:
    on a stream with the ascii encoding the name café cannot be written,
    the print of line 32 raises inside the [try] and the run reports Error
    with exit code 2; and when the application object is there but answers
    [False] to the truth test, the run reports NotFound although every
    lookup would hand back its object and the name. *)
Lemma resolved_name_not_always_found :
  (exit_code (run posix_ascii (host_with (Ret (PyStr cafe)))) = 2 /\
   (exists message,
      reports (run posix_ascii (host_with (Ret (PyStr cafe)))) (Error message)) /\
   ~ reports (run posix_ascii (host_with (Ret (PyStr cafe)))) (Found cafe)) /\
  (reports (run windows host_with_falsy_application) NotFound /\
   import_DaVinciResolveScript host_with_falsy_application = Ret 0%nat /\
   scriptapp host_with_falsy_application 0%nat "Resolve" = Ret (PyObj 1%nat) /\
   GetProjectManager host_with_falsy_application 1%nat = Ret (PyObj 2%nat) /\
   GetCurrentProject host_with_falsy_application 2%nat = Ret (PyObj 3%nat) /\
   GetName host_with_falsy_application 3%nat = Ret (PyStr "MyProject")).
Proof.
  split.
  - split; [reflexivity | split].
    + eexists. split; reflexivity.
    + intros [_ H]. discriminate H.
  - repeat split.
Qed.

(** C3, amended: when the startup completes, the import and the three
    handle lookups each hand back an object that passes the truth test, and
    the name lookup returns a text the stream encodes, the script prints
    exactly that name and exits with code 0; for the empty name, which every
    stream encodes, standard output is an empty line with exit code 0, which
    is Found and not NotFound.  A name the stream cannot encode makes the
    print of line 32 raise inside the [try]: the run reports Error with the
    text of that exception when its line can be written. *)
Theorem resolved_name_is_printed env sf :
  starts env ->
  (forall name,
     resolves_to sf (PyStr name) -> writable env name ->
     reports (run env sf) (Found name) /\
     out (run env sf) = name ++ String LF EmptyString /\
     exit_code (run env sf) = 0 /\
     ~ reports (run env sf) NotFound) /\
  (resolves_to sf (PyStr EmptyString) ->
   reports (run env sf) (Found EmptyString) /\
   out (run env sf) = String LF EmptyString /\
   exit_code (run env sf) = 0 /\
   ~ reports (run env sf) NotFound) /\
  (forall name e,
     resolves_to sf (PyStr name) -> write_error env name = Some e ->
     writable env ("ERROR:" ++ exn_text e) ->
     reports (run env sf) (Error (exn_text e))).
Proof.
  intros Hs. rewrite (run_starts env sf Hs).
  assert (A : forall name,
     resolves_to sf (PyStr name) -> writable env name ->
     reports (finish (guarded env sf initial)) (Found name) /\
     out (finish (guarded env sf initial)) = name ++ String LF EmptyString /\
     exit_code (finish (guarded env sf initial)) = 0 /\
     ~ reports (finish (guarded env sf initial)) NotFound).
  { intros name R W. destruct (guarded_resolves env sf _ R) as (m & h1 & h2 & h3 & E).
    rewrite E. unfold reports, exit_code, finish, try_except_Exception, print, write,
      bind, answer, sys_exit, raise. cbn.
    unfold writable in W. rewrite W. cbn.
    repeat split. intros [_ H]. discriminate H. }
  split; [exact A | split].
  - intros R. apply (A EmptyString R). reflexivity.
  - intros name e R W We.
    destruct (guarded_resolves env sf _ R) as (m & h1 & h2 & h3 & E).
    rewrite E. unfold reports, finish, try_except_Exception, handler, print, write,
      bind, answer, sys_exit, raise. cbn.
    rewrite W. cbn. unfold writable in We. cbn in We. rewrite We. cbn.
    split; reflexivity.
Qed.

Lemma resolved_name_is_printed_witness :
  (reports (run windows (host_with (Ret (PyStr "MyProject")))) (Found "MyProject") /\
   out (run windows (host_with (Ret (PyStr "MyProject")))) =
     "MyProject" ++ String LF EmptyString /\
   exit_code (run windows (host_with (Ret (PyStr "MyProject")))) = 0 /\
   ~ reports (run windows (host_with (Ret (PyStr "MyProject")))) NotFound) /\
  (reports (run windows (host_with (Ret (PyStr EmptyString)))) (Found EmptyString) /\
   out (run windows (host_with (Ret (PyStr EmptyString)))) = String LF EmptyString /\
   exit_code (run windows (host_with (Ret (PyStr EmptyString)))) = 0 /\
   ~ reports (run windows (host_with (Ret (PyStr EmptyString)))) NotFound) /\
  reports (run posix_ascii (host_with (Ret (PyStr cafe))))
          (Error (exn_text cafe_encode_error)).
Proof.
  split; [| split].
  - apply (resolved_name_is_printed windows (host_with (Ret (PyStr "MyProject")))).
    + right. reflexivity.
    + exists 0%nat, 1%nat, 2%nat, 3%nat. repeat split; reflexivity.
    + reflexivity.
  - apply (resolved_name_is_printed windows (host_with (Ret (PyStr EmptyString)))).
    + right. reflexivity.
    + exists 0%nat, 1%nat, 2%nat, 3%nat. repeat split; reflexivity.
  - destruct (resolved_name_is_printed posix_ascii (host_with (Ret (PyStr cafe))))
      as (_ & _ & C).
    + left. discriminate.
    + apply (C cafe cafe_encode_error).
      * exists 0%nat, 1%nat, 2%nat, 3%nat. repeat split; reflexivity.
      * reflexivity.
      * reflexivity.
Defined.

(** ** C4 *)

(** How the handler ends: by the exit request of line 39 after its print,
    or by the exception its print raises. *)
Lemma handler_ends env sf e w :
  handler env sf e w =
  match write_error env ("ERROR:" ++ exn_text e) with
  | None => (Abrupt (SystemExit 2),
             mk_world ((stdout w ++ "ERROR:" ++ exn_text e) ++ String LF EmptyString)
                      (trace w))
  | Some e' => (Abrupt (Exc e'), w)
  end.
Proof.
  unfold handler, print, write, bind, answer, sys_exit, raise. cbn.
  destruct (write_error env _); reflexivity.
Qed.




(** ** C5 *)

(** C5, at an explicit input: on a stream with the ascii encoding, when the
    import raises an error with the message café, the print of the handler
    raises: nothing is written, the exception escapes, and the run reports
    no Error. *)
Lemma unwritable_import_error_escapes :
  out (run posix_ascii (not_installed cafe_error)) = EmptyString /\
  status (run posix_ascii (not_installed cafe_error)) = Uncaught cafe_line_encode_error /\
  exit_code (run posix_ascii (not_installed cafe_error)) = 1 /\
  (forall message, ~ reports (run posix_ascii (not_installed cafe_error)) (Error message)).
Proof.
  repeat apply conj; try reflexivity.
  intros message [_ H]. discriminate H.
Qed.

(** C5, amended: when the import of the scripting module raises [e], the
    import is the only lookup of the run, whatever the rest of the surface
    would answer: no step of the chain is attempted.  The handler prints
    the line ERROR: followed by the text of [e]: when the stream encodes
    that line the process reports Error with that text and exit code 2;
    when it does not, the print raises, nothing is written and the
    exception escapes. *)
Theorem acquisition_failure_is_error env sf e :
  starts env ->
  import_DaVinciResolveScript sf = Raise e ->
  calls (run env sf) = [(Acquire, Raise e)] /\
  (writable env ("ERROR:" ++ exn_text e) ->
   reports (run env sf) (Error (exn_text e)) /\ exit_code (run env sf) = 2) /\
  (forall e', write_error env ("ERROR:" ++ exn_text e) = Some e' ->
              out (run env sf) = EmptyString /\ status (run env sf) = Uncaught e' /\
              exit_code (run env sf) = 1).
Proof.
  intros Hs Hm. rewrite (run_starts env sf Hs).
  assert (B : try_body env sf initial =
              (Abrupt (Exc e), mk_world EmptyString [(Acquire, Raise e)])).
  { unfold try_body, bind, lookup, answer, import_module, initial.
    rewrite Hm. reflexivity. }
  unfold guarded, try_except_Exception. rewrite B, handler_ends.
  unfold writable, reports, exit_code.
  destruct (write_error env ("ERROR:" ++ exn_text e)) as [e1 |]; cbn.
  - split; [reflexivity | split].
    + discriminate.
    + intros e' [= <-]. repeat split.
  - split; [reflexivity | split].
    + intros _. repeat split.
    + discriminate.
Qed.

Lemma acquisition_failure_is_error_witness :
  calls (run windows (not_installed two_line_error)) =
    [(Acquire, Raise two_line_error)] /\
  (reports (run windows (not_installed two_line_error))
           (Error (exn_text two_line_error)) /\
   exit_code (run windows (not_installed two_line_error)) = 2) /\
  (out (run posix_ascii (not_installed cafe_error)) = EmptyString /\
   status (run posix_ascii (not_installed cafe_error)) = Uncaught cafe_line_encode_error /\
   exit_code (run posix_ascii (not_installed cafe_error)) = 1).
Proof.
  destruct (acquisition_failure_is_error windows (not_installed two_line_error)
                                         two_line_error) as (A & B & _).
  - right. reflexivity.
  - reflexivity.
  - destruct (acquisition_failure_is_error posix_ascii (not_installed cafe_error)
                                           cafe_error) as (_ & _ & C).
    + left. discriminate.
    + reflexivity.
    + split; [exact A | split; [apply B; reflexivity | apply C; reflexivity]].
Defined.

(** ** C6 *)

(** C6: when the module is imported and the application lookup returns
    [None], the process reports NotFound: standard output is NO_PROJECT, the
    exit code is 1, and the outcome is not Error. *)
Theorem null_application_is_not_found env sf m :
  starts env ->
  import_DaVinciResolveScript sf = Ret m ->
  scriptapp sf m "Resolve" = Ret PyNone ->
  reports (run env sf) NotFound /\
  out (run env sf) = "NO_PROJECT" ++ String LF EmptyString /\
  exit_code (run env sf) = 1 /\
  (forall message, ~ reports (run env sf) (Error message)).
Proof.
  intros Hs Hm Ha. rewrite (run_starts env sf Hs).
  assert (E : finish (guarded env sf initial) =
              mk_process (line "NO_PROJECT") (Exited 1)
                [(Acquire, Ret (PyObj m)); (Application, Ret PyNone)]).
  { unfold finish, guarded, try_except_Exception, try_body, print, write, bind,
      lookup, answer, sys_exit, raise, ret, import_module, initial.
    rewrite Hm. cbn. rewrite Ha. cbn.
    rewrite (write_error_NO_PROJECT env). cbn.
    rewrite (write_error_LF env). reflexivity. }
  rewrite E. repeat split. intros message [_ H]. discriminate H.
Qed.

Lemma null_application_is_not_found_witness :
  reports (run windows (application_answers (Ret PyNone))) NotFound /\
  out (run windows (application_answers (Ret PyNone))) =
    "NO_PROJECT" ++ String LF EmptyString /\
  exit_code (run windows (application_answers (Ret PyNone))) = 1 /\
  (forall message,
     ~ reports (run windows (application_answers (Ret PyNone))) (Error message)).
Proof.
  apply (null_application_is_not_found windows (application_answers (Ret PyNone)) 0%nat).
  - right. reflexivity.
  - reflexivity.
  - reflexivity.
Defined.

(** ** C7 *)

(** A run in which a lookup raised [e] ends in the handler, whose print
    decides: the line ERROR: with the text of [e] and exit code 2, or the
    exception of the print, uncaught, with nothing written. *)
Lemma logged_raise_ends env sf s e :
  In (s, Raise e) (calls (finish (guarded env sf initial))) ->
  match write_error env ("ERROR:" ++ exn_text e) with
  | None => reports (finish (guarded env sf initial)) (Error (exn_text e))
  | Some e' => out (finish (guarded env sf initial)) = EmptyString /\
               status (finish (guarded env sf initial)) = Uncaught e' /\
               exit_code (finish (guarded env sf initial)) = 1
  end.
Proof.
  unfold reports, exit_code.
  walk env sf; intros H; pick H; try congruence;
    repeat split; congruence.
Qed.

(** C7, at an explicit input: on a stream with the ascii encoding, when the
    application lookup raises an exception with the message café, the
    print of the handler raises: standard output stays empty and the
    process ends with an uncaught exception and exit status 1, not with the
    line ERROR:café and exit code 2. *)
Lemma unwritable_traversal_error_escapes :
  In (Application, Raise cafe_error)
     (calls (run posix_ascii (application_answers (Raise cafe_error)))) /\
  out (run posix_ascii (application_answers (Raise cafe_error))) = EmptyString /\
  status (run posix_ascii (application_answers (Raise cafe_error))) =
    Uncaught cafe_line_encode_error /\
  exit_code (run posix_ascii (application_answers (Raise cafe_error))) = 1.
Proof.
  repeat apply conj; try reflexivity. simpl. auto.
Qed.

(** C7, amended: when a step of the traversal (application, manager,
    project or name) raises [e] and the stream encodes the line ERROR:
    followed by the text of [e], standard output is exactly that line and
    the exit code is 2; for the message timeout, which every stream
    encodes, standard output is the line ERROR:timeout and the exit code is
    2.  When the stream cannot encode the line, the print of the handler
    raises, nothing is written and that exception escapes. *)
Theorem traversal_exception_is_error env sf s e :
  s <> Acquire ->
  In (s, Raise e) (calls (run env sf)) ->
  (writable env ("ERROR:" ++ exn_text e) ->
   out (run env sf) = "ERROR:" ++ exn_text e ++ String LF EmptyString /\
   exit_code (run env sf) = 2 /\
   reports (run env sf) (Error (exn_text e))) /\
  (exn_text e = "timeout" ->
   out (run env sf) = "ERROR:timeout" ++ String LF EmptyString /\
   exit_code (run env sf) = 2) /\
  (forall e', write_error env ("ERROR:" ++ exn_text e) = Some e' ->
              out (run env sf) = EmptyString /\ status (run env sf) = Uncaught e' /\
              exit_code (run env sf) = 1).
Proof.
  intros Hn H. pose proof (run_of_call _ _ _ H) as E. rewrite E in *.
  apply logged_raise_ends in H. unfold writable.
  split; [| split].
  - intros W. rewrite W in H. destruct H as [Ho Hc].
    split; [exact Ho | split; [| split; assumption]].
    unfold exit_code. rewrite Hc. reflexivity.
  - intros Ht. rewrite Ht in H.
    change ("ERROR:" ++ "timeout") with "ERROR:timeout" in H.
    rewrite (write_error_ascii env "ERROR:timeout" eq_refl) in H.
    destruct H as [Ho Hc]. split; [exact Ho |].
    unfold exit_code. rewrite Hc. reflexivity.
  - intros e' W. rewrite W in H. exact H.
Qed.

Lemma traversal_exception_is_error_witness :
  (out (run windows (project_answers (Raise timed_out))) =
     "ERROR:timeout" ++ String LF EmptyString /\
   exit_code (run windows (project_answers (Raise timed_out))) = 2) /\
  (out (run posix (application_answers (Raise cafe_error))) =
     "ERROR:" ++ cafe ++ String LF EmptyString /\
   exit_code (run posix (application_answers (Raise cafe_error))) = 2) /\
  (out (run posix_ascii (application_answers (Raise cafe_error))) = EmptyString /\
   status (run posix_ascii (application_answers (Raise cafe_error))) =
     Uncaught cafe_line_encode_error /\
   exit_code (run posix_ascii (application_answers (Raise cafe_error))) = 1).
Proof.
  destruct (traversal_exception_is_error
              windows (project_answers (Raise timed_out)) Project timed_out)
    as (_ & B & _).
  { discriminate. }
  { simpl. auto 8. }
  destruct (traversal_exception_is_error
              posix (application_answers (Raise cafe_error)) Application cafe_error)
    as (A & _ & _).
  { discriminate. }
  { simpl. auto 8. }
  destruct (traversal_exception_is_error
              posix_ascii (application_answers (Raise cafe_error)) Application cafe_error)
    as (_ & _ & C).
  { discriminate. }
  { simpl. auto 8. }
  split; [exact (B eq_refl) | split].
  - destruct (A eq_refl) as (A1 & A2 & _). split; assumption.
  - exact (C cafe_line_encode_error eq_refl).
Defined.

(** ** C8 *)

(** C8: the lookups of a run are an initial segment of the chain import,
    application, manager, project, name, in that order, and a lookup that
    raised or whose answer the truth test rejects is the last one of the
    run. *)
Theorem chain_is_sequential env sf :
  prefix (map fst (calls (run env sf))) chain_order /\
  (forall before ev after,
     calls (run env sf) = (before ++ ev :: after)%list ->
     halts sf ev = true -> after = []).
Proof.
  destruct (run_cases env sf) as [[_ E] | (e & _ & _ & E)]; rewrite E.
  - split.
    + unfold prefix, chain_order. walk env sf; eexists; reflexivity.
    + apply halting_event_last. unfold halts.
      walk env sf; repeat constructor; cbn;
        repeat match goal with T : truthy _ _ = Ret true |- _ => rewrite T end;
        reflexivity.
  - split.
    + exists chain_order. reflexivity.
    + intros [|ev' before] ev after H; discriminate H.
Qed.

Lemma chain_is_sequential_witness :
  prefix (map fst (calls (run windows (manager_answers (Ret (PyInt 0)))))) chain_order /\
  @nil event = [].
Proof.
  destruct (chain_is_sequential windows (manager_answers (Ret (PyInt 0)))) as [A B].
  split; [exact A |].
  apply (B [(Acquire, Ret (PyObj 0%nat)); (Application, Ret (PyObj 1%nat))]
           (Manager, Ret (PyInt 0)) []).
  - reflexivity.
  - reflexivity.
Defined.

(** ** C9 *)

(** The truth test of the script rejects the values Python calls false. *)
Lemma falsy_rejected sf v : falsy sf v -> truthy sf v = Ret false.
Proof. intros [| | | | h H]; try reflexivity. exact H. Qed.

(** C9: when the application, manager or project lookup returns a value
    that Python's truth test rejects ([None], [False], zero, the empty text,
    or an object that answers false, such as a zero float, an empty
    container or a host object that says so), the process reports NotFound
    with exit code 1 and that lookup is the last of the run. *)
Theorem falsy_handle_is_not_found env sf s v :
  s = Application \/ s = Manager \/ s = Project ->
  In (s, Ret v) (calls (run env sf)) ->
  falsy sf v ->
  reports (run env sf) NotFound /\
  exit_code (run env sf) = 1 /\
  exists before, calls (run env sf) = (before ++ [(s, Ret v)])%list.
Proof.
  intros Hs H F. apply falsy_rejected in F.
  pose proof (run_of_call _ _ _ H) as E. rewrite E in *. clear E.
  unfold reports, exit_code. revert H.
  walk env sf; intros H; pick H;
    try (destruct Hs as [Hs | [Hs | Hs]]; discriminate Hs);
    try congruence.
  - repeat split.
    exists [(Acquire, Ret (PyObj m)); (Application, Ret resolve); (Manager, Ret pm)].
    reflexivity.
  - repeat split.
    exists [(Acquire, Ret (PyObj m)); (Application, Ret resolve)]. reflexivity.
  - repeat split. exists [(Acquire, Ret (PyObj m))]. reflexivity.
Qed.

Lemma falsy_handle_is_not_found_witness :
  (reports (run windows (manager_answers (Ret (PyInt 0)))) NotFound /\
   exit_code (run windows (manager_answers (Ret (PyInt 0)))) = 1 /\
   exists before,
     calls (run windows (manager_answers (Ret (PyInt 0)))) =
       (before ++ [(Manager, Ret (PyInt 0))])%list) /\
  (reports (run windows host_with_falsy_application) NotFound /\
   exit_code (run windows host_with_falsy_application) = 1 /\
   exists before,
     calls (run windows host_with_falsy_application) =
       (before ++ [(Application, Ret (PyObj 1%nat))])%list).
Proof.
  split.
  - apply (falsy_handle_is_not_found windows (manager_answers (Ret (PyInt 0))) Manager).
    + right. left. reflexivity.
    + simpl. auto 8.
    + apply falsy_zero.
  - apply (falsy_handle_is_not_found windows host_with_falsy_application Application).
    + left. reflexivity.
    + simpl. auto 8.
    + apply falsy_object. reflexivity.
Defined.

(** ** C10 *)

(** C10: in a run in which the name lookup returned and the name is
    printed, the body of the [try] ends by raising [SystemExit] with code 0
    from inside the guarded region; the [except Exception] clause lets it
    through unchanged, the handler does not run, and the process exits with
    code 0: it does not report Error and its exit code is not 2. *)
Theorem exit_request_passes_handler env sf v text :
  In (Name, Ret v) (calls (run env sf)) ->
  printable env sf v text ->
  (exists w, try_body env sf initial = (Abrupt (SystemExit 0), w) /\
             guarded env sf initial = (Abrupt (SystemExit 0), w) /\
             stdout w = text ++ String LF EmptyString) /\
  status (run env sf) = Exited 0 /\
  exit_code (run env sf) <> 2 /\
  (forall message, ~ reports (run env sf) (Error message)).
Proof.
  intros H [P W]. unfold writable in W.
  pose proof (run_of_call _ _ _ H) as E. rewrite E in *. clear E.
  assert (B : exists w, try_body env sf initial = (Abrupt (SystemExit 0), w) /\
                        stdout w = text ++ String LF EmptyString).
  { revert H. unfold guarded, try_except_Exception.
    walk env sf; intros H; pick H; try congruence.
    assert (text0 = text) as -> by congruence.
    eexists. split; reflexivity. }
  destruct B as (w & B & O).
  assert (G : guarded env sf initial = (Abrupt (SystemExit 0), w)).
  { unfold guarded, try_except_Exception. rewrite B. reflexivity. }
  split; [exists w; auto |].
  unfold reports, exit_code, finish. rewrite G. cbn.
  repeat split; try discriminate. intros message [_ Hc]. discriminate Hc.
Qed.

Lemma exit_request_passes_handler_witness :
  (exists w, try_body windows (host_with (Ret (PyStr "MyProject"))) initial =
               (Abrupt (SystemExit 0), w) /\
             guarded windows (host_with (Ret (PyStr "MyProject"))) initial =
               (Abrupt (SystemExit 0), w) /\
             stdout w = "MyProject" ++ String LF EmptyString) /\
  status (run windows (host_with (Ret (PyStr "MyProject")))) = Exited 0 /\
  exit_code (run windows (host_with (Ret (PyStr "MyProject")))) <> 2 /\
  (forall message,
     ~ reports (run windows (host_with (Ret (PyStr "MyProject")))) (Error message)).
Proof.
  apply (exit_request_passes_handler windows (host_with (Ret (PyStr "MyProject")))
                                     (PyStr "MyProject") "MyProject").
  - simpl. auto 8.
  - split; reflexivity.
Defined.

(** ** What the exit code and the output tell a caller *)

Lemma getattr_call_returns attr f recv v :
  getattr_call attr f recv = Ret v -> exists h, recv = PyObj h /\ f h = Ret v.
Proof.
  destruct recv as [| b | n | t | h]; unfold getattr_call; try discriminate.
  intros H. exists h. split; [reflexivity | exact H].
Qed.

(** A value that is no object has none of the methods the script calls:
    the attribute lookup raises. *)
Lemma getattr_call_non_object attr f v :
  (forall h, v <> PyObj h) ->
  getattr_call attr f v = Raise (AttributeError v attr).
Proof.
  intros H. destruct v as [| b | n | t | h]; try reflexivity.
  exfalso. exact (H h eq_refl).
Qed.

(** What the truth test rejects is one of the values Python calls false. *)
Lemma rejected_falsy sf v : truthy sf v = Ret false -> falsy sf v.
Proof.
  destruct v as [| [|] | n | [| c t] | h]; cbn; intros H;
    try discriminate H; try constructor.
  - injection H as H. apply negb_false_iff, Z.eqb_eq in H. subst. constructor.
  - exact H.
Qed.

(** Every run either reports an outcome or leaves standard output empty. *)
Lemma run_verdict env sf :
  (exists o, reports (run env sf) o) \/ out (run env sf) = EmptyString.
Proof.
  destruct (run_cases env sf) as [[_ E] | (e & _ & _ & E)]; rewrite E.
  - unfold reports. walk env sf.
    all: try (right; reflexivity).
    all: left.
    all: try (eexists (Error _); split; reflexivity).
    all: try (exists NotFound; split; reflexivity).
    exists (Found text). split; reflexivity.
  - right. reflexivity.
Qed.

Lemma logged_falsy_reports env sf s v :
  handle_step s ->
  In (s, Ret v) (calls (finish (guarded env sf initial))) ->
  truthy sf v = Ret false ->
  reports (finish (guarded env sf initial)) NotFound.
Proof.
  unfold reports, handle_step. intros Hs H T. revert H.
  walk env sf; intros H; pick H;
    try (destruct Hs as [Hs | [Hs | Hs]]; discriminate Hs);
    try congruence; split; reflexivity.
Qed.

(** A run that reports nothing of the kind: its output is empty, or its
    exit status is another. *)
Ltac not_reported R :=
  let Ho := fresh "Ho" in
  let Hc := fresh "Hc" in
  destruct R as [Ho Hc]; cbn in Ho, Hc;
  first [ discriminate Hc
        | discriminate Ho
        | exfalso; symmetry in Ho; exact (line_not_empty _ Ho) ].

(** X1: the run reports Found with the name [name] exactly when the
    startup completes, the chain resolves (the import and the three handle
    lookups each hand back an object that passes the truth test, and the
    name lookup returns a value), [str()] of that value is [name], and the
    stream encodes it. *)
Theorem found_iff_resolved_and_printed env sf name :
  reports (run env sf) (Found name) <->
  starts env /\ exists v, resolves_to sf v /\ printable env sf v name.
Proof.
  split.
  - destruct (run_cases env sf) as [[Hs E] | (e & _ & _ & E)]; rewrite E.
    + intros R. split; [exact Hs |]. revert R.
      walk env sf; intros R; try solve [not_reported R].
      destruct R as [Ho _]. cbn in Ho.
      apply (line_inj text name) in Ho. subst text.
      exists project_name. split; [| split; assumption].
      unfold resolves_to.
      repeat match goal with
        | H : getattr_call _ _ _ = Ret _ |- _ =>
            apply getattr_call_returns in H as (? & -> & H)
        end.
      cbn in *. eauto 12.
    + intros [_ Hc]. discriminate Hc.
  - intros [Hs (v & R & P & W)]. rewrite (run_starts env sf Hs).
    destruct (guarded_resolves env sf v R) as (m & h1 & h2 & h3 & E).
    rewrite E. unfold reports, finish, try_except_Exception, print, write,
      bind, answer, sys_exit, raise. cbn.
    rewrite P. cbn. unfold writable in W. rewrite W. cbn.
    split; reflexivity.
Qed.

(** X3: the run reports NotFound exactly when the application, manager or
    project lookup of the run returned a value that Python's truth test
    rejects. *)
Theorem not_found_iff_falsy_handle env sf :
  reports (run env sf) NotFound <->
  exists s v, handle_step s /\ In (s, Ret v) (calls (run env sf)) /\ falsy sf v.
Proof.
  split.
  - destruct (run_cases env sf) as [[Hs E] | (e & _ & _ & E)]; rewrite E.
    + unfold handle_step.
      walk env sf; intros R; try solve [not_reported R].
      all: match goal with
           | T : truthy _ ?v = Ret false |- _ =>
               let close :=
                 solve [split; [auto | split; [cbn; auto 8 | exact (rejected_falsy _ _ T)]]] in
               first [ exists Project, v; close
                     | exists Manager, v; close
                     | exists Application, v; close ]
           end.
    + intros [_ Hc]. discriminate Hc.
  - intros (s & v & Hs & H & F).
    pose proof (run_of_call _ _ _ H) as E. rewrite E in *.
    exact (logged_falsy_reports env sf s v Hs H (falsy_rejected sf v F)).
Qed.

(** X4: standard output is empty exactly in the runs that report none of
    the three outcomes: a run that wrote anything wrote the line of exactly
    one outcome and exited with its code. *)
Theorem empty_output_iff_no_outcome env sf :
  out (run env sf) = EmptyString <-> forall o, ~ reports (run env sf) o.
Proof.
  split.
  - intros H o [Ho _]. rewrite H in Ho. symmetry in Ho.
    exact (line_not_empty _ Ho).
  - intros H. destruct (run_verdict env sf) as [[o R] | E].
    + exfalso. exact (H o R).
    + exact E.
Qed.

(** X2: the run reports Error only for an exception raised inside the
    guarded region, and there are four places it can come from: a lookup
    that raised it; the truth test of the answer of the application, manager
    or project lookup; [str()] of the name; or the write of the name, when
    the stream cannot encode it.  The message reported is the text of that
    exception, and the stream encoded its line. *)
Theorem error_comes_from_an_exception env sf message :
  reports (run env sf) (Error message) ->
  exists e,
    message = exn_text e /\
    writable env ("ERROR:" ++ message) /\
    ((exists s, In (s, Raise e) (calls (run env sf))) \/
     (exists s v, handle_step s /\ In (s, Ret v) (calls (run env sf)) /\
                  truthy sf v = Raise e) \/
     (exists v, In (Name, Ret v) (calls (run env sf)) /\
                (py_str env sf v = Raise e \/
                 exists text, py_str env sf v = Ret text /\
                              write_error env text = Some e))).
Proof.
  destruct (run_cases env sf) as [[Hs E] | (e & _ & _ & E)]; rewrite E.
  - unfold handle_step.
    walk env sf; intros R; try solve [not_reported R].
    all: destruct R as [Ho _]; cbn in Ho;
      match type of Ho with
      | String _ (String _ (String _ (String _ (String _ (String _
          (exn_text ?e ++ _)))))) = _ =>
          apply (line_inj ("ERROR:" ++ exn_text e) ("ERROR:" ++ message)) in Ho;
          injection Ho as <-; exists e
      end;
      (split; [reflexivity | split; [assumption |]]).
    all: try solve [left; eexists; cbn; auto 8].
    all: try solve [right; left;
                    first [ exists Project, project; split; [auto | split; [cbn; auto 8 | assumption]]
                          | exists Manager, pm; split; [auto | split; [cbn; auto 8 | assumption]]
                          | exists Application, resolve; split; [auto | split; [cbn; auto 8 | assumption]] ]].
    all: right; right; exists project_name; split; [cbn; auto 8 |].
    all: first [left; assumption | right; exists text; split; assumption].
  - intros [_ Hc]. discriminate Hc.
Qed.

Lemma error_comes_from_an_exception_witness :
  exists e,
    exn_text cafe_encode_error = exn_text e /\
    writable posix_ascii ("ERROR:" ++ exn_text cafe_encode_error) /\
    ((exists s, In (s, Raise e) (calls (run posix_ascii (host_with (Ret (PyStr cafe)))))) \/
     (exists s v, handle_step s /\
                  In (s, Ret v) (calls (run posix_ascii (host_with (Ret (PyStr cafe))))) /\
                  truthy (host_with (Ret (PyStr cafe))) v = Raise e) \/
     (exists v, In (Name, Ret v) (calls (run posix_ascii (host_with (Ret (PyStr cafe))))) /\
                (py_str posix_ascii (host_with (Ret (PyStr cafe))) v = Raise e \/
                 exists text, py_str posix_ascii (host_with (Ret (PyStr cafe))) v = Ret text /\
                              write_error posix_ascii text = Some e))).
Proof.
  apply (error_comes_from_an_exception posix_ascii (host_with (Ret (PyStr cafe)))).
  split; reflexivity.
Defined.

(** X5: when a lookup is answered by a value that passes the truth test
    but is no object (True, a non-zero number, a non-empty text), the
    script goes on, the attribute lookup of the next step raises an
    AttributeError, and the run reports Error with its text: such an answer
    is neither NotFound nor Found. *)
Theorem true_non_object_is_error env sf s s' v :
  next_step s = Some s' ->
  In (s, Ret v) (calls (run env sf)) ->
  truthy sf v = Ret true ->
  (forall h, v <> PyObj h) ->
  In (s', Raise (AttributeError v (attribute_of s'))) (calls (run env sf)) /\
  reports (run env sf) (Error (exn_text (AttributeError v (attribute_of s')))).
Proof.
  intros Hn H T Hno. pose proof (run_of_call _ _ _ H) as E.
  rewrite E in *. clear E. unfold reports. revert H.
  walk env sf; intros H; pick H; try congruence;
    try (exfalso; eapply Hno; reflexivity);
    try discriminate Hn;
    injection Hn as <-;
    repeat match goal with
      | E : getattr_call ?a ?f ?x = _ |- _ =>
          rewrite (getattr_call_non_object a f x Hno) in E;
          first [discriminate E | injection E as <-]
      end;
    try (split; [cbn; auto 8 | split; reflexivity]).
  all: exfalso;
    match goal with
    | W : write_error _ _ = Some _ |- _ =>
        destruct v as [| [|] | n | t | h];
        try (eapply Hno; reflexivity);
        unfold write_error in W; cbn in W; discriminate W
    end.
Qed.

Lemma true_non_object_is_error_witness :
  In (Manager, Raise (AttributeError (PyInt 7) (attribute_of Manager)))
     (calls (run windows (application_answers (Ret (PyInt 7))))) /\
  reports (run windows (application_answers (Ret (PyInt 7))))
          (Error (exn_text (AttributeError (PyInt 7) (attribute_of Manager)))).
Proof.
  apply (true_non_object_is_error windows (application_answers (Ret (PyInt 7)))
                                  Application Manager (PyInt 7)).
  - reflexivity.
  - simpl. auto 8.
  - reflexivity.
  - intros h. discriminate.
Defined.

(** A run that wrote anything wrote one line, of a text the stream
    encodes. *)
Lemma printed_line env sf :
  out (finish (guarded env sf initial)) <> EmptyString ->
  exists text, out (finish (guarded env sf initial)) = line text /\
               writable env text.
Proof.
  unfold writable.
  walk env sf; intros N; try (exfalso; apply N; reflexivity).
  all: try (eexists ("ERROR:" ++ exn_text _); split; [reflexivity | assumption]).
  all: try (exists "NO_PROJECT"; split; reflexivity).
  exists text. split; [reflexivity | assumption].
Qed.

(** X6: standard output alone does not tell the outcome.  Whatever a run
    printed, the run against a host whose open project has that text as its
    name prints the same and exits with code 0; NotFound and Error are told
    from Found by the exit code only. *)
Theorem output_is_shared_with_found env sf :
  starts env ->
  out (run env sf) <> EmptyString ->
  exists name,
    out (run env (host_with (Ret (PyStr name)))) = out (run env sf) /\
    exit_code (run env (host_with (Ret (PyStr name)))) = 0 /\
    line name = out (run env sf).
Proof.
  intros Hs. rewrite (run_starts env sf Hs). intros N.
  destruct (printed_line env sf N) as (text & Ho & W).
  exists text.
  rewrite (run_starts env (host_with (Ret (PyStr text))) Hs), Ho.
  unfold finish, guarded, try_except_Exception, try_body, print, write, bind,
    lookup, answer, sys_exit, raise, import_module, initial, exit_code.
  cbn. unfold writable in W. rewrite W. cbn.
  split; [reflexivity | split; reflexivity].
Qed.

Lemma output_is_shared_with_found_witness :
  exists name,
    out (run windows (host_with (Ret (PyStr name)))) =
      out (run windows (application_answers (Ret PyNone))) /\
    exit_code (run windows (host_with (Ret (PyStr name)))) = 0 /\
    line name = out (run windows (application_answers (Ret PyNone))).
Proof.
  apply (output_is_shared_with_found windows (application_answers (Ret PyNone))).
  - right. reflexivity.
  - discriminate.
Defined.

(** Splitting a concrete log after its first [n] events. *)
Ltac split_log n :=
  match goal with
  | |- exists before r after, ?l = _ =>
      exists (firstn n l); cbn; eexists; eexists; reflexivity
  end.

(** X7: the script never stops early.  A lookup answered by a value that
    passes the truth test is directly followed, in the log of the run, by
    the lookup of the next step of the chain. *)
Theorem true_answer_is_followed env sf s s' v :
  next_step s = Some s' ->
  In (s, Ret v) (calls (run env sf)) ->
  truthy sf v = Ret true ->
  exists before r after,
    calls (run env sf) = (before ++ (s, Ret v) :: (s', r) :: after)%list.
Proof.
  intros Hn H T. pose proof (run_of_call _ _ _ H) as E.
  rewrite E in *. clear E. revert H.
  walk env sf; intros H; pick H; try congruence;
    try discriminate Hn;
    injection Hn as <-;
    first [split_log 0%nat | split_log 1%nat | split_log 2%nat | split_log 3%nat].
Qed.

Lemma true_answer_is_followed_witness :
  exists before r after,
    calls (run windows (project_answers (Raise timed_out))) =
      (before ++ (Manager, Ret (PyObj 2%nat)) :: (Project, r) :: after)%list.
Proof.
  apply (true_answer_is_followed windows (project_answers (Raise timed_out))
                                 Manager Project (PyObj 2%nat)).
  - reflexivity.
  - simpl. auto 8.
  - reflexivity.
Defined.

(** ** Names that are no text *)

Lemma ascii_only_app a b : ascii_only (a ++ b) = ascii_only a && ascii_only b.
Proof.
  induction a as [| c a IH]; cbn; [reflexivity |].
  rewrite IH. apply andb_assoc.
Qed.

Lemma ascii_only_uint d : ascii_only (NilZero.string_of_uint d) = true.
Proof.
  assert (H : forall u, ascii_only (NilEmpty.string_of_uint u) = true)
    by (induction u; cbn; auto).
  destruct d; try reflexivity; apply (H (_ d)).
Qed.

Lemma ascii_only_int d : ascii_only (NilZero.string_of_int d) = true.
Proof. destruct d; cbn; apply ascii_only_uint. Qed.

Lemma digits_limit_line_ascii limit :
  ascii_only ("ERROR:" ++ exn_text (digits_limit_error limit)) = true.
Proof.
  unfold digits_limit_error. cbn [exn_text].
  rewrite !ascii_only_app, ascii_only_uint. reflexivity.
Qed.

Lemma numeral_parses n :
  NilZero.int_of_string (NilZero.string_of_int (Z.to_int n)) = Some (Z.to_int n).
Proof.
  apply NilZero.isi; destruct n as [| p | p]; cbn; try discriminate;
    intros [= H]; exact (DecimalPos.Unsigned.to_uint_nonnil p H).
Qed.

(** What the script does with the name once the chain has resolved:
    [print], then [sys.exit(0)], with the handler behind. *)
Lemma resolved_run env sf v :
  starts env -> resolves_to sf v ->
  exists l,
    run env sf =
    finish (try_except_Exception (print env sf v ;; sys_exit 0) (handler env sf)
                                 (mk_world EmptyString l)).
Proof.
  intros Hs R. rewrite (run_starts env sf Hs).
  destruct (guarded_resolves env sf v R) as (m & h1 & h2 & h3 & E).
  eexists. exact E.
Qed.

(** X8: a resolved name that is no text is printed as Python prints it.
    [True] and [False] are printed as the texts True and False with exit
    code 0.  An integer whose number of digits is within the interpreter's
    limit (or when there is no limit) is printed as a numeral that reads
    back as that integer, with exit code 0.  An integer with more digits
    than the limit makes [str()] raise inside the [try]: the run reports
    Error with the text of that [ValueError] and exit code 2. *)
Theorem non_text_name_is_printed env sf :
  starts env ->
  (resolves_to sf (PyBool true) -> reports (run env sf) (Found "True")) /\
  (resolves_to sf (PyBool false) -> reports (run env sf) (Found "False")) /\
  (forall n,
     resolves_to sf (PyInt n) ->
     (int_max_str_digits env = 0 \/
      Decimal.nb_digits (Decimal.abs (Z.to_int n)) <= int_max_str_digits env)%nat ->
     exists numeral d,
       reports (run env sf) (Found numeral) /\
       NilZero.int_of_string numeral = Some d /\ Z.of_int d = n) /\
  (forall n,
     resolves_to sf (PyInt n) ->
     (0 < int_max_str_digits env /\
      int_max_str_digits env < Decimal.nb_digits (Decimal.abs (Z.to_int n)))%nat ->
     reports (run env sf) (Error (exn_text (digits_limit_error (int_max_str_digits env))))).
Proof.
  intros Hs. repeat apply conj.
  - intros R. destruct (resolved_run env sf _ Hs R) as [l ->]. split; reflexivity.
  - intros R. destruct (resolved_run env sf _ Hs R) as [l ->]. split; reflexivity.
  - intros n R L. destruct (resolved_run env sf _ Hs R) as [l ->].
    exists (NilZero.string_of_int (Z.to_int n)), (Z.to_int n).
    split; [| split; [apply numeral_parses | apply DecimalZ.of_to]].
    unfold reports, finish, try_except_Exception, print, write, bind, answer,
      sys_exit, raise, py_str.
    assert (C : ((0 <? int_max_str_digits env)%nat &&
                 (int_max_str_digits env <?
                    Decimal.nb_digits (Decimal.abs (Z.to_int n)))%nat) = false).
    { apply andb_false_iff. destruct L as [L | L].
      - left. rewrite L. reflexivity.
      - right. apply Nat.ltb_ge. exact L. }
    rewrite C. cbn.
    rewrite (write_error_ascii env _ (ascii_only_int (Z.to_int n))). cbn.
    split; reflexivity.
  - intros n R [L1 L2]. destruct (resolved_run env sf _ Hs R) as [l ->].
    unfold reports, finish, try_except_Exception, print, bind, answer, py_str.
    assert (C : ((0 <? int_max_str_digits env)%nat &&
                 (int_max_str_digits env <?
                    Decimal.nb_digits (Decimal.abs (Z.to_int n)))%nat) = true).
    { apply andb_true_iff. split; apply Nat.ltb_lt; assumption. }
    rewrite C. cbn. rewrite handler_ends.
    rewrite (write_error_ascii env _ (digits_limit_line_ascii (int_max_str_digits env))).
    split; reflexivity.
Qed.

Lemma non_text_name_is_printed_witness :
  reports (run windows (host_with (Ret (PyBool true)))) (Found "True") /\
  reports (run windows (host_with (Ret (PyBool false)))) (Found "False") /\
  (exists numeral d,
     reports (run windows (host_with (Ret (PyInt (-42))))) (Found numeral) /\
     NilZero.int_of_string numeral = Some d /\ Z.of_int d = -42) /\
  reports (run (mk_env "linux" None encodes_all 640)
               (host_with (Ret (PyInt (10 ^ 640)))))
          (Error (exn_text (digits_limit_error 640))).
Proof.
  destruct (non_text_name_is_printed windows (host_with (Ret (PyBool true))))
    as (A & _); [right; reflexivity |].
  destruct (non_text_name_is_printed windows (host_with (Ret (PyBool false))))
    as (_ & B & _); [right; reflexivity |].
  destruct (non_text_name_is_printed windows (host_with (Ret (PyInt (-42)))))
    as (_ & _ & C & _); [right; reflexivity |].
  destruct (non_text_name_is_printed (mk_env "linux" None encodes_all 640)
                                     (host_with (Ret (PyInt (10 ^ 640)))))
    as (_ & _ & _ & D); [left; discriminate |].
  split; [| split; [| split]].
  - apply A. exists 0%nat, 1%nat, 2%nat, 3%nat. repeat split; reflexivity.
  - apply B. exists 0%nat, 1%nat, 2%nat, 3%nat. repeat split; reflexivity.
  - apply (C (-42)).
    + exists 0%nat, 1%nat, 2%nat, 3%nat. repeat split; reflexivity.
    + right. vm_compute. lia.
  - apply (D (10 ^ 640)).
    + exists 0%nat, 1%nat, 2%nat, 3%nat. repeat split; reflexivity.
    + split; vm_compute; lia.
Defined.
